(** * RodinViewer: the declaration surface [api.d.ts] and its documented behaviour

    The repository ships one TypeScript declaration file.  It declares the
    viewer's classes and interfaces (twice: the file holds two revisions of
    the same surface) and documents, in comments, what their methods do.

    - [Surface] transcribes the export declarations of both revisions, and
      [Members] every member of every declaration.
    - [Num] is the numeric data of the program: a JavaScript [number] is an
      IEEE 754 binary64 value.
    - [Loader] and [Viewer] hold the state of [RemoteLoader] and [Settings]
      as the file declares it, with the method bodies whose effect the doc
      comments of the file spell out. *)

From Stdlib Require Import ZArith Bool.
From Stdlib Require Import SpecFloat.
From stdpp Require Import gmap strings list.

Local Open Scope string_scope.

(* ===================================================================== *)
(** ** The export declarations of [api.d.ts] *)
(* ===================================================================== *)

Module Surface.

Inductive kind := Interface | Class.

#[global] Instance kind_eq_dec : EqDecision kind.
Proof. solve_decision. Defined.

(** One [export] declaration: its name, whether it is an [interface] or a
    [declare class], the name after [extends] when there is one, and the
    line of the file it starts on. *)
Record decl := Decl {
  name : string;
  dkind : kind;
  base : option string;
  line : nat
}.

(** Lines 1 to 394: the first revision. *)
Definition first_revision : list decl :=
  [ Decl "RodinMaterialProperties" Interface None 7;
    Decl "RodinMaterial" Interface None 18;
    Decl "RodinAsset" Interface None 35;
    Decl "RemoteLoader" Class (Some "Component") 46;
    Decl "IBloom" Interface (Some "Component") 129;
    Decl "IAmbientOcclusion" Interface (Some "Component") 151;
    Decl "Settings" Class None 176;
    Decl "SettingsMenu" Class (Some "Component") 317;
    Decl "RodinController" Class (Some "Component") 329 ].

(** Lines 395 to 644: the second revision. *)
Definition second_revision : list decl :=
  [ Decl "RodinMaterialProperties" Interface None 401;
    Decl "RodinMaterial" Interface None 411;
    Decl "RodinAsset" Interface None 428;
    Decl "RemoteLoader" Class (Some "Component") 438;
    Decl "Settings" Class (Some "Component") 511;
    Decl "RodinController" Class (Some "Component") 585 ].

Definition api_d_ts : list decl := first_revision ++ second_revision.

Definition is_class (d : decl) : bool := bool_decide (dkind d = Class).

Definition exports (ds : list decl) : list string := name <$> ds.

Definition classes (ds : list decl) : list string :=
  name <$> List.filter is_class ds.

Definition interfaces (ds : list decl) : list string :=
  name <$> List.filter (λ d, negb (is_class d)) ds.

Definition extends_Component (d : decl) : bool :=
  bool_decide (base d = Some "Component").

(** The four components the documentation names. *)
Definition components : list string :=
  [ "RemoteLoader"; "Settings"; "SettingsMenu"; "RodinController" ].

(** The data and post-process interfaces exported next to them. *)
Definition data_interfaces : list string :=
  [ "RodinMaterialProperties"; "RodinMaterial"; "RodinAsset";
    "IBloom"; "IAmbientOcclusion" ].

End Surface.

(* ===================================================================== *)
(** ** Numbers *)
(* ===================================================================== *)

(** A JavaScript [number] is an IEEE 754 binary64 value: signed zeros,
    infinities, NaN, and finite values [m * 2^e]. *)
Module Num.

Definition num : Type := spec_float.

Definition prec : Z := 53.
Definition emax : Z := 1024.

Definition of_Z (z : Z) : num := binary_normalize prec emax z 0 false.

End Num.

(* ===================================================================== *)
(** ** Engine values the declarations mention *)
(* ===================================================================== *)

(** [Vec3], [Color], [Node] and [Material] belong to the host engine; the
    declaration file only names them.  They are kept to the parts the
    documented operations read or write. *)
Module Engine.
Import Num.

Record Vec3 := mkVec3 { x : num; y : num; z : num }.

Record Color := mkColor { r : num; g : num; b : num; a : num }.

(** A scene node: its name and its rotation in Euler angles (degrees). *)
Record Node := mkNode { node_name : string; eulerAngles : Vec3 }.

(** A material: its name and its named numeric properties. *)
Record Material := mkMaterial {
  mtl_name : string;
  props : gmap string num
}.

Definition setProperty (k : string) (v : num) (m : Material) : Material :=
  mkMaterial (mtl_name m) (<[k := v]> (props m)).

End Engine.

(* ===================================================================== *)
(** ** [RemoteLoader] *)
(* ===================================================================== *)

Module Loader.
Import Num Engine.

(** [string | Texture2D] *)
Inductive texture := TextureUrl (u : string) | TextureObject (id : nat).

Record RodinMaterialProperties := mkProperties {
  roughness : num;
  metallic : num;
  albedoScale : option Vec3
}.

Record RodinMaterial := mkRodinMaterial {
  rm_name : string;
  mainTexture : option texture;
  albedoMap : option texture;
  pbrMap : option texture;
  normalMap : option texture;
  baseColorMap : option texture;
  properties : option RodinMaterialProperties
}.

Record RodinAsset := mkAsset {
  asset_name : string;
  asset_host : string;
  url : string;
  asset_materials : list RodinMaterial
}.

(** A callback is a JavaScript closure; the loader only stores and passes
    it on, so it is identified by a handle. *)
Definition callback : Type := nat.

(** The declared members of [RemoteLoader] ([materials], [blankColor],
    [wireColor], [wireDepthBias], [host], [loading], private [_data]), the
    callback wired to the download in flight, and the name of the material
    the model was last switched to. *)
Record RemoteLoader := mkLoader {
  materials : list Material;
  blankColor : Color;
  wireColor : Color;
  wireDepthBias : num;
  host : string;
  loading : bool;
  _data : option RodinAsset;
  pending : option callback;
  current : string
}.

(** The materials [switchMaterial] documents as supported. *)
Definition supported : list string := [ "pbr"; "toon"; "shaded"; "blank" ].

(** Modelled from the spec: the body of [RemoteLoader.switchMaterial] is
    missing; it is documented to switch the material of the loaded model to
    one of the supported materials, by name. *)
Definition switchMaterial (nm : string) (l : RemoteLoader) : RemoteLoader :=
  if bool_decide (nm ∈ supported) then
    mkLoader (materials l) (blankColor l) (wireColor l) (wireDepthBias l)
             (host l) (loading l) (_data l) (pending l) nm
  else l.

Definition set_lineWidth (width : num) (m : Material) : Material :=
  if bool_decide (mtl_name m = "toon") then setProperty "lineWidth" width m
  else m.

(** Modelled from the spec: the body of [RemoteLoader.setLineWidth] is
    missing; it is documented as "Set line width of the toon material, only
    works when the current material is toon". *)
Definition setLineWidth (width : num) (l : RemoteLoader) : RemoteLoader :=
  if bool_decide (current l = "toon") then
    mkLoader (set_lineWidth width <$> materials l) (blankColor l)
             (wireColor l) (wireDepthBias l) (host l) (loading l) (_data l)
             (pending l) (current l)
  else l.

(** [l'] differs from [l] at most in its [materials]. *)
Definition same_but_materials (l l' : RemoteLoader) : Prop :=
  blankColor l' = blankColor l ∧ wireColor l' = wireColor l
  ∧ wireDepthBias l' = wireDepthBias l ∧ host l' = host l
  ∧ loading l' = loading l ∧ _data l' = _data l
  ∧ pending l' = pending l ∧ current l' = current l.

End Loader.

(* ===================================================================== *)
(** ** [Settings] *)
(* ===================================================================== *)

Module Viewer.
Import Num Engine.

Record IBloom := mkBloom {
  bloom_enabled : bool;
  intensity : num;
  threshold : num;
  iterations : num
}.

Record IAmbientOcclusion := mkAO {
  ao_enabled : bool;
  radiusScale : num;
  aoSaturation : num;
  needBlur : bool
}.

(** The declared members [loader], [postProcess], [light], [bloom], [ao]. *)
Record Settings := mkSettings {
  loader : Loader.RemoteLoader;
  postProcess : Node;
  light : Node;
  bloom : IBloom;
  ao : IAmbientOcclusion
}.

(** [get lightDirection(): Vec3], "the light direction in Euler angles": the
    rotation of the [light] node. *)
Definition lightDirection (s : Settings) : Vec3 := eulerAngles (light s).

(** Modelled from the spec: the body of [Settings.setLightDirection] is
    missing; it is documented as "Set angles of directional light" with
    "y: FIXED at 90, cannot be over written". *)
Definition setLightDirection (e : Vec3) (s : Settings) : Settings :=
  mkSettings (loader s) (postProcess s)
             (mkNode (node_name (light s)) (mkVec3 (x e) (of_Z 90) (z e)))
             (bloom s) (ao s).

End Viewer.

(* ===================================================================== *)
(** ** Sample states *)
(* ===================================================================== *)

Module Samples.
Import Num Engine.

Definition white : Color :=
  mkColor (of_Z 255) (of_Z 255) (of_Z 255) (of_Z 255).

Definition origin : Vec3 := mkVec3 (of_Z 0) (of_Z 0) (of_Z 0).

Definition plain (nm : string) : Material := mkMaterial nm ∅.

(** A loader at rest, showing the pbr material. *)
Definition idle_loader : Loader.RemoteLoader :=
  Loader.mkLoader [ plain "pbr"; plain "toon"; plain "shaded"; plain "blank" ]
    white white (of_Z 0) "https://example.org" false None None "pbr".

(** The same loader after [switchMaterial("toon")]. *)
Definition toon_loader : Loader.RemoteLoader :=
  Loader.switchMaterial "toon" idle_loader.

End Samples.

(* ===================================================================== *)
(** ** The members of the declarations *)
(* ===================================================================== *)

(** Every member of every [export] declaration of [api.d.ts], as the file
    writes it: types are kept as the text of the file. *)
Module Members.
Import Surface.

Inductive mkind := Field | Getter | Setter | Method.

Inductive access := Public | Private.

#[global] Instance mkind_eq_dec : EqDecision mkind.
Proof. solve_decision. Defined.

#[global] Instance access_eq_dec : EqDecision access.
Proof. solve_decision. Defined.

(** A parameter [name: type] or [name?: type]. *)
Record param := Param {
  p_name : string;
  p_optional : bool;
  p_type : string
}.

#[global] Instance param_eq_dec : EqDecision param.
Proof. solve_decision. Defined.

(** A member: the line it is on, [private] or not, [static] or not, what it
    is, its name, whether it is marked [?], its parameters (methods and
    setters), its type (the result type of a method or getter; none where
    the file writes none), and whether its doc comment carries [@readonly]
    and [@returns]. *)
Record member := Member {
  m_line : nat;
  m_access : access;
  m_static : bool;
  m_kind : mkind;
  m_name : string;
  m_optional : bool;
  m_params : list param;
  m_type : option string;
  m_readonly : bool;
  m_returns : bool
}.

#[global] Instance member_eq_dec : EqDecision member.
Proof. solve_decision. Defined.

(** A declaration with its members. *)
Record tdecl := TDecl {
  t_line : nat;
  t_kind : kind;
  t_name : string;
  t_base : option string;
  t_members : list member
}.

#[global] Instance tdecl_eq_dec : EqDecision tdecl.
Proof. solve_decision. Defined.

(** Lines 1 to 394: the first revision, member by member. *)
Definition first_members : list tdecl :=
  [ TDecl 7 Interface "RodinMaterialProperties" None
    [ Member 8 Public false Field "roughness" false [] (Some "number") false false;
      Member 9 Public false Field "metallic" false [] (Some "number") false false;
      Member 10 Public false Field "albedoScale" false [] (Some "Vec3") false false ];
    TDecl 18 Interface "RodinMaterial" None
    [ Member 19 Public false Field "name" false [] (Some "string") false false;
      Member 20 Public false Field "material" true [] (Some "Material") false false;
      Member 21 Public false Field "mainTexture" true [] (Some "string | Texture2D") false false;
      Member 22 Public false Field "albedoMap" true [] (Some "string | Texture2D") false false;
      Member 23 Public false Field "pbrMap" true [] (Some "string | Texture2D") false false;
      Member 24 Public false Field "normalMap" true [] (Some "string | Texture2D") false false;
      Member 25 Public false Field "baseColorMap" true [] (Some "string | Texture2D") false false;
      Member 26 Public false Field "properties" true [] (Some "RodinMaterialProperties") false false ];
    TDecl 35 Interface "RodinAsset" None
    [ Member 36 Public false Field "name" false [] (Some "string") false false;
      Member 37 Public false Field "host" false [] (Some "string") false false;
      Member 38 Public false Field "url" false [] (Some "string") false false;
      Member 39 Public false Field "materials" false [] (Some "RodinMaterial[]") false false ];
    TDecl 46 Class "RemoteLoader" (Some "Component")
    [ Member 50 Public false Field "materials" false [] (Some "Material[]") false false;
      Member 54 Public false Getter "blankColor" false [] (Some "Color") false false;
      Member 55 Public false Setter "blankColor" false
        [ Param "val" false "Color" ]
        None false false;
      Member 59 Public false Getter "wireColor" false [] (Some "Color") false false;
      Member 60 Public false Setter "wireColor" false
        [ Param "val" false "Color" ]
        None false false;
      Member 67 Public false Getter "wireDepthBias" false [] (Some "number") false false;
      Member 68 Public false Setter "wireDepthBias" false
        [ Param "val" false "number" ]
        None false false;
      Member 73 Public false Field "host" false [] (Some "string") false false;
      Member 77 Public false Field "loading" false [] (Some "boolean") false false;
      Member 79 Public false Method "start" false [] (Some "void") false false;
      Member 80 Public false Method "reset" false [] (Some "void") false false;
      Member 89 Public false Method "loadGLTF" false
        [ Param "url" false "string";
          Param "name" false "string";
          Param "cb" false "(node: Node, loadedRenderer: LoadedRenderer, backColor?: Color, edgeColor?: Color) => void";
          Param "mtlConfig" true "any" ]
        (Some "boolean") false true;
      Member 96 Public false Method "loadRodinAsset" false
        [ Param "asset" false "RodinAsset";
          Param "cb" true "(node: Node, renderer: MeshRenderer, backColor?: Color, edgeColor?: Color) => void" ]
        (Some "boolean") false true;
      Member 102 Public false Method "updateMaterial" false
        [ Param "updates" false "RodinMaterial[]" ]
        (Some "void") false false;
      Member 111 Public false Method "switchMaterial" false
        [ Param "name" false "string" ]
        (Some "void") false false;
      Member 116 Public false Method "enableWireFrame" false
        [ Param "enabled" false "boolean" ]
        (Some "void") false false;
      Member 121 Public false Method "setLineWidth" false
        [ Param "width" false "number" ]
        (Some "void") false false;
      Member 122 Private false Field "genAlternativeMeshes" false [] None false false ];
    TDecl 129 Interface "IBloom" (Some "Component")
    [ Member 133 Public false Field "enabled" false [] (Some "boolean") false false;
      Member 137 Public false Field "intensity" false [] (Some "number") false false;
      Member 141 Public false Field "threshold" false [] (Some "number") false false;
      Member 145 Public false Field "iterations" false [] (Some "number") false false ];
    TDecl 151 Interface "IAmbientOcclusion" (Some "Component")
    [ Member 155 Public false Field "enabled" false [] (Some "boolean") false false;
      Member 159 Public false Field "radiusScale" false [] (Some "number") false false;
      Member 163 Public false Field "aoSaturation" false [] (Some "number") false false;
      Member 167 Public false Field "needBlur" false [] (Some "boolean") false false ];
    TDecl 176 Class "Settings" None
    [ Member 177 Public true Field "instance" false [] (Some "Settings") false false;
      Member 181 Public false Field "timeRecords" false []
        (Some "{ INIT_PREVIEW: number; PAGE_LOAD: number; SCRIPT_LOAD: number; ENGINE_INIT: number; SCENE_LOAD: number; MODEL_REQUEST: number; MODEL_DOWNLOAD: number; MODEL_PARSE: number; MATERIAL_INIT: number; MESH_GENERATE: number; MODEL_LOAD_FINISH: number; FRAME_RENDER: number; }")
        false false;
      Member 198 Public false Field "loader" false [] (Some "RemoteLoader") false false;
      Member 202 Public false Field "postProcess" false [] (Some "Node") false false;
      Member 207 Public false Field "camera" false [] (Some "Camera") false false;
      Member 211 Public false Field "light" false [] (Some "Node") false false;
      Member 215 Public false Field "bloom" false [] (Some "IBloom") false false;
      Member 219 Public false Field "ao" false [] (Some "IAmbientOcclusion") false false;
      Member 224 Public false Getter "lightDirection" false [] (Some "Vec3") true false;
      Member 229 Public false Getter "backColor" false [] (Some "Color") true false;
      Member 234 Public false Getter "bloomEnabled" false [] (Some "boolean") true false;
      Member 239 Public false Getter "aoEnabled" false [] (Some "boolean") true false;
      Member 244 Public false Getter "vignetteEnabled" false [] (Some "boolean") true false;
      Member 246 Public false Method "init" false
        [ Param "loader" false "RemoteLoader";
          Param "postProcess" false "Node";
          Param "camera" false "Camera";
          Param "light" true "Node";
          Param "canvas" true "Node";
          Param "menuPrefab" true "string" ]
        (Some "void") false false;
      Member 251 Public false Method "recordInitTime" false
        [ Param "initTimeInMS" false "number" ]
        (Some "void") false false;
      Member 255 Public false Method "logTimeRecords" false [] (Some "void") false false;
      Member 260 Public false Method "enableMenu" false
        [ Param "enabled" false "boolean" ]
        (Some "void") false false;
      Member 271 Public false Method "loadRodinAsset" false
        [ Param "asset" false "RodinAsset";
          Param "cb" true "(node: Node, renderer: MeshRenderer, backColor?: Color, edgeColor?: Color) => void" ]
        (Some "boolean") false true;
      Member 279 Public false Method "setLightDirection" false
        [ Param "eulerAngles" false "Vec3" ]
        (Some "void") false false;
      Member 284 Public false Method "setColorBackground" false
        [ Param "color" true "Color" ]
        (Some "void") false false;
      Member 288 Public false Method "setEnvironment" false [] (Some "void") false false;
      Member 293 Public false Method "setBlankScene" false
        [ Param "enabled" false "boolean" ]
        (Some "void") false false;
      Member 298 Public false Method "enableBloom" false
        [ Param "enabled" false "boolean" ]
        (Some "void") false false;
      Member 303 Public false Method "enableAO" false
        [ Param "enabled" false "boolean" ]
        (Some "void") false false;
      Member 308 Public false Method "enableVignette" false
        [ Param "enabled" false "boolean" ]
        (Some "void") false false;
      Member 309 Private false Field "loadSample" false [] None false false ];
    TDecl 317 Class "SettingsMenu" (Some "Component")
    [ Member 322 Public false Field "assets" false [] (Some "JsonAsset") false false ];
    TDecl 329 Class "RodinController" (Some "Component")
    [ Member 334 Public false Field "damping" false [] (Some "number") false false;
      Member 338 Public false Field "zoomSpeed" false [] (Some "number") false false;
      Member 339 Public false Field "mouse_constant" false [] (Some "number") false false;
      Member 343 Public false Field "target" false [] (Some "Node | null") false false;
      Member 347 Public false Field "maxRadius" false [] (Some "number") false false;
      Member 351 Public false Field "minRadius" false [] (Some "number") false false;
      Member 352 Private false Field "_minPolar" false [] None false false;
      Member 353 Private false Field "_maxPolar" false [] None false false;
      Member 357 Public false Getter "minPolar" false [] (Some "number") false false;
      Member 358 Public false Setter "minPolar" false
        [ Param "value" false "number" ]
        None false false;
      Member 362 Public false Getter "maxPolar" false [] (Some "number") false false;
      Member 363 Public false Setter "maxPolar" false
        [ Param "value" false "number" ]
        None false false;
      Member 364 Public false Field "maxAzimuth" false [] (Some "any") false false;
      Member 365 Public false Field "minAzimuth" false [] (Some "any") false false;
      Member 369 Public false Getter "azimuth" false [] (Some "any") false false;
      Member 370 Public false Setter "azimuth" false
        [ Param "value" false "any" ]
        None false false;
      Member 374 Public false Getter "polar" false [] (Some "any") false false;
      Member 375 Public false Setter "polar" false
        [ Param "e" false "any" ]
        None false false;
      Member 379 Public false Getter "radius" false [] (Some "any") false false;
      Member 380 Public false Setter "radius" false
        [ Param "value" false "any" ]
        None false false;
      Member 388 Public false Method "windowMouseMove" false
        [ Param "e" false "MouseEvent" ]
        (Some "void") false false;
      Member 393 Public false Method "onMouseUp" false [] (Some "void") false false ] ].

(** Lines 395 to 644: the second revision, member by member. *)
Definition second_members : list tdecl :=
  [ TDecl 401 Interface "RodinMaterialProperties" None
    [ Member 402 Public false Field "roughness" false [] (Some "number") false false;
      Member 403 Public false Field "metallic" false [] (Some "number") false false ];
    TDecl 411 Interface "RodinMaterial" None
    [ Member 412 Public false Field "name" false [] (Some "string") false false;
      Member 413 Public false Field "material" true [] (Some "Material") false false;
      Member 414 Public false Field "mainTexture" true [] (Some "string | Texture2D") false false;
      Member 415 Public false Field "albedoMap" true [] (Some "string | Texture2D") false false;
      Member 416 Public false Field "pbrMap" true [] (Some "string | Texture2D") false false;
      Member 417 Public false Field "normalMap" true [] (Some "string | Texture2D") false false;
      Member 418 Public false Field "baseColorMap" true [] (Some "string | Texture2D") false false;
      Member 419 Public false Field "properties" true [] (Some "RodinMaterialProperties") false false ];
    TDecl 428 Interface "RodinAsset" None
    [ Member 429 Public false Field "name" false [] (Some "string") false false;
      Member 430 Public false Field "host" false [] (Some "string") false false;
      Member 431 Public false Field "url" false [] (Some "string") false false;
      Member 432 Public false Field "materials" false [] (Some "RodinMaterial[]") false false ];
    TDecl 438 Class "RemoteLoader" (Some "Component")
    [ Member 442 Public false Field "materials" false [] (Some "Material[]") false false;
      Member 447 Public false Field "host" false [] (Some "string") false false;
      Member 451 Public false Field "loading" false [] (Some "boolean") false false;
      Member 452 Private false Field "_data" false [] None false false;
      Member 453 Private false Field "_loader" false [] None false false;
      Member 454 Private false Field "_model" false [] None false false;
      Member 455 Private false Field "_renderer" false [] None false false;
      Member 456 Private false Field "_wireFrame" false [] None false false;
      Member 457 Private false Field "_quadMesh" false [] None false false;
      Member 458 Private false Field "_mtlCtrls" false [] None false false;
      Member 459 Public false Method "start" false [] (Some "void") false false;
      Member 460 Public false Method "reset" false [] (Some "void") false false;
      Member 469 Public false Method "loadGLTF" false
        [ Param "url" false "string";
          Param "name" false "string";
          Param "cb" false "(node: Node, renderer: MeshRenderer, backColor?: Color, edgeColor?: Color) => void";
          Param "mtlConfig" true "any" ]
        (Some "boolean") false true;
      Member 476 Public false Method "loadRodinAsset" false
        [ Param "asset" false "RodinAsset";
          Param "cb" true "(node: Node, renderer: MeshRenderer, backColor?: Color, edgeColor?: Color) => void" ]
        (Some "boolean") false true;
      Member 482 Public false Method "updateMaterial" false
        [ Param "updates" false "RodinMaterial[]" ]
        (Some "void") false false;
      Member 491 Public false Method "switchMaterial" false
        [ Param "name" false "string" ]
        (Some "void") false false;
      Member 496 Public false Method "enableWireFrame" false
        [ Param "enabled" false "boolean" ]
        (Some "void") false false;
      Member 501 Public false Method "setLineWidth" false
        [ Param "width" false "number" ]
        (Some "void") false false ];
    TDecl 511 Class "Settings" (Some "Component")
    [ Member 515 Public false Field "loader" false [] (Some "RemoteLoader") false false;
      Member 519 Public false Field "postProcess" false [] (Some "Node") false false;
      Member 523 Public false Field "light" false [] (Some "Node") false false;
      Member 528 Public false Field "sphere" false [] (Some "MeshRenderer") false false;
      Member 533 Public false Field "assets" false [] (Some "JsonAsset") false false;
      Member 540 Public false Method "loadRodinAsset" false
        [ Param "asset" false "RodinAsset" ]
        (Some "boolean") false true;
      Member 548 Public false Method "setLightDirection" false
        [ Param "eulerAngles" false "Vec3" ]
        (Some "void") false false;
      Member 553 Public false Method "setEnvironment" false [] (Some "void") false false;
      Member 558 Public false Method "setColorBackground" false
        [ Param "color" false "Color" ]
        (Some "void") false false;
      Member 563 Public false Method "setBlankScene" false
        [ Param "enabled" false "boolean" ]
        (Some "void") false false;
      Member 568 Public false Method "enableBloom" false
        [ Param "enabled" false "boolean" ]
        (Some "void") false false;
      Member 573 Public false Method "enableAO" false
        [ Param "enabled" false "boolean" ]
        (Some "void") false false;
      Member 578 Public false Method "enableVignette" false
        [ Param "enabled" false "boolean" ]
        (Some "void") false false ];
    TDecl 585 Class "RodinController" (Some "Component")
    [ Member 590 Public false Field "damping" false [] (Some "number") false false;
      Member 594 Public false Field "zoomSpeed" false [] (Some "number") false false;
      Member 595 Public false Field "mouse_constant" false [] (Some "number") false false;
      Member 599 Public false Field "target" false [] (Some "Node | null") false false;
      Member 603 Public false Field "maxRadius" false [] (Some "number") false false;
      Member 607 Public false Field "minRadius" false [] (Some "number") false false;
      Member 608 Private false Field "_minPolar" false [] None false false;
      Member 609 Private false Field "_maxPolar" false [] None false false;
      Member 613 Public false Getter "minPolar" false [] (Some "number") false false;
      Member 614 Public false Setter "minPolar" false
        [ Param "value" false "number" ]
        None false false;
      Member 618 Public false Getter "maxPolar" false [] (Some "number") false false;
      Member 619 Public false Setter "maxPolar" false
        [ Param "value" false "number" ]
        None false false;
      Member 620 Public false Field "maxAzimuth" false [] (Some "any") false false;
      Member 621 Public false Field "minAzimuth" false [] (Some "any") false false;
      Member 625 Public false Getter "azimuth" false [] (Some "any") false false;
      Member 626 Public false Setter "azimuth" false
        [ Param "value" false "any" ]
        None false false;
      Member 630 Public false Getter "polar" false [] (Some "any") false false;
      Member 631 Public false Setter "polar" false
        [ Param "e" false "any" ]
        None false false;
      Member 635 Public false Getter "radius" false [] (Some "any") false false;
      Member 636 Public false Setter "radius" false
        [ Param "value" false "any" ]
        None false false;
      Member 643 Public false Method "windowMouseMove" false
        [ Param "e" false "MouseEvent" ]
        (Some "void") false false ] ].

Definition all_members : list tdecl := first_members ++ second_members.

(** The declaration without its members, as in [Surface]. *)
Definition header (t : tdecl) : decl :=
  Decl (t_name t) (t_kind t) (t_base t) (t_line t).

Definition is_public (m : member) : bool := bool_decide (m_access m = Public).

Definition has_kind (k : mkind) (m : member) : bool :=
  bool_decide (m_kind m = k).

(** The first member of [t] of kind [k] named [n]. *)
Definition lookup_member (k : mkind) (n : string) (t : tdecl) : option member :=
  List.find (λ m, has_kind k m && bool_decide (m_name m = n)) (t_members t).

(** The first declaration named [n]. *)
Definition lookup_decl (n : string) (ds : list tdecl) : option tdecl :=
  List.find (λ t, bool_decide (t_name t = n)) ds.

(** *** Calls *)

(** An argument list, given by the types of the arguments, fits a parameter
    list when each argument has the type of its parameter (any type fits
    [any]) and the parameters left without an argument are optional. *)
Fixpoint admits (ps : list param) (args : list string) : bool :=
  match ps, args with
  | [], [] => true
  | [], _ :: _ => false
  | p :: ps', [] => p_optional p && admits ps' []
  | p :: ps', a :: args' =>
      (bool_decide (p_type p = a) || bool_decide (p_type p = "any"))
      && admits ps' args'
  end.

(** [new] relaxes [old]: the same types position by position, nothing
    required that was optional, and only optional parameters added. *)
Fixpoint relaxes (new old : list param) {struct old} : bool :=
  match old, new with
  | [], _ => forallb p_optional new
  | _ :: _, [] => false
  | o :: old', n :: new' =>
      bool_decide (p_type n = p_type o)
      && implb (p_optional o) (p_optional n)
      && relaxes new' old'
  end.

(** The least and the greatest number of arguments of a call. *)
Definition min_args (ps : list param) : nat :=
  length (List.filter (λ p, negb (p_optional p)) ps).

Definition max_args (ps : list param) : nat := length ps.

(** *** Objects *)

(** An object with the properties [present] provides every required member
    of the interface [t]. *)
Definition provides (present : list string) (t : tdecl) : bool :=
  forallb (λ m, m_optional m || bool_decide (m_name m ∈ present))
          (t_members t).

(** *** Checks over the table *)

Definition for_all_members (chk : tdecl → member → bool) (ds : list tdecl)
    : bool :=
  forallb (λ t, forallb (chk t) (t_members t)) ds.

(** The setter of [g]'s name in [t], when [g] is a getter. *)
Definition setter_of (t : tdecl) (g : member) : option member :=
  lookup_member Setter (m_name g) t.

Definition getter_of (t : tdecl) (s : member) : option member :=
  lookup_member Getter (m_name s) t.

(** The member of the first revision that answers to the member [m] of the
    declaration [t]: same declaration name, same kind, same member name. *)
Definition counterpart (t : tdecl) (m : member) : option member :=
  match lookup_decl (t_name t) first_members with
  | Some t1 => lookup_member (m_kind m) (m_name m) t1
  | None => None
  end.

(** The declaration named [n] and its member of kind [k] named [m], for
    naming members of the table. *)
Definition get_decl (n : string) (ds : list tdecl) : tdecl :=
  default (TDecl 0 Interface n None []) (lookup_decl n ds).

Definition get_member (k : mkind) (m : string) (t : tdecl) : member :=
  default (Member 0 Private false k m false [] None false false)
          (lookup_member k m t).

(** *** Type texts *)

(** Whether the text [needle] occurs in the text [hay]. *)
Definition occurs (needle hay : string) : bool :=
  match String.index 0 needle hay with Some _ => true | None => false end.

(** Whether a type text names a declaration of [ds]. *)
Definition names_declaration (ds : list tdecl) (ty : string) : bool :=
  existsb (λ t, occurs (t_name t) ty) ds.

(** The type texts a member writes: its own type, when it writes one, and
    the types of its parameters. *)
Definition written_types (m : member) : list string :=
  match m_type m with Some ty => [ty] | None => [] end
  ++ (p_type <$> m_params m).

(** Whether a member writes a type that names a declaration of the file.
    Such a text can stand for different types in the two revisions; a text
    that names none stands for a primitive or an engine type. *)
Definition names_own (m : member) : bool :=
  existsb (names_declaration all_members) (written_types m).


End Members.

(* ===================================================================== *)
(** ** The declared surface: components and base classes *)
(* ===================================================================== *)

Module SurfaceFacts.
Import Surface.

Lemma api_Forall (P : decl → Prop) :
  Forall P first_revision → Forall P second_revision →
  ∀ d, d ∈ api_d_ts → P d.
Proof.
  intros H1 H2 d Hd. unfold api_d_ts in Hd.
  apply elem_of_app in Hd as [Hd | Hd];
    [ revert d Hd; apply Forall_forall, H1
    | revert d Hd; apply Forall_forall, H2 ].
Qed.

(** C7, as stated, fails: the first revision declares [Settings] as a class
    without a base class (line 176). *)
Lemma Settings_declared_without_base :
  ¬ (∀ d, d ∈ api_d_ts → is_class d = true → extends_Component d = true).
Proof.
  intros H.
  specialize (H (Decl "Settings" Class None 176)).
  assert (Hin : Decl "Settings" Class None 176 ∈ api_d_ts).
  { unfold api_d_ts, first_revision. set_solver. }
  specialize (H Hin eq_refl). discriminate H.
Qed.

(** C7, amended: every declared class extends [Component], except the
    [Settings] class of the first revision (line 176), which has no base
    class; [RemoteLoader], [SettingsMenu], [RodinController] and the
    [Settings] of the second revision all extend [Component]. *)
Theorem classes_extend_Component (d : decl) :
  d ∈ api_d_ts → is_class d = true →
  base d = Some "Component" ∨ d = Decl "Settings" Class None 176.
Proof.
  revert d.
  apply (api_Forall (λ d, is_class d = true →
           base d = Some "Component" ∨ d = Decl "Settings" Class None 176));
    unfold first_revision, second_revision;
    repeat match goal with
           | |- Forall _ (_ :: _) => apply List.Forall_cons
           | |- Forall _ [] => apply List.Forall_nil
           end;
    intros Hc; solve [ by left | by right | discriminate Hc ].
Qed.

Lemma classes_extend_Component_witness :
  base (Decl "Settings" Class (Some "Component") 511) = Some "Component"
  ∨ Decl "Settings" Class (Some "Component") 511
    = Decl "Settings" Class None 176.
Proof.
  apply (classes_extend_Component (Decl "Settings" Class (Some "Component") 511)).
  - unfold api_d_ts, second_revision. set_solver.
  - reflexivity.
Defined.

(** C8, as stated, fails: the file exports more than the four components;
    [RodinAsset] is one of the exports. *)
Lemma exports_beyond_components :
  ¬ (∀ n, n ∈ exports api_d_ts ↔ n ∈ components).
Proof.
  intros H. destruct (H "RodinAsset") as [H1 _].
  assert (Hin : "RodinAsset" ∈ exports api_d_ts).
  { unfold exports, api_d_ts, first_revision. cbn.
    do 2 apply list_elem_of_further. apply list_elem_of_here. }
  specialize (H1 Hin). unfold components in H1.
  rewrite !elem_of_cons, elem_of_nil in H1.
  destruct H1 as [E | [E | [E | [E | []]]]]; discriminate E.
Qed.

(** C8, amended: the classes the file declares are exactly the four
    components (the second revision declares three of them, without
    [SettingsMenu]); the other exports are the five interfaces
    [RodinMaterialProperties], [RodinMaterial], [RodinAsset], [IBloom] and
    [IAmbientOcclusion]. *)
Theorem declared_classes_are_the_components :
  classes first_revision = components
  ∧ classes second_revision = [ "RemoteLoader"; "Settings"; "RodinController" ]
  ∧ interfaces first_revision = data_interfaces
  ∧ interfaces second_revision
    = [ "RodinMaterialProperties"; "RodinMaterial"; "RodinAsset" ]
  ∧ (∀ n, n ∈ exports api_d_ts ↔ n ∈ components ∨ n ∈ data_interfaces).
Proof.
  repeat split; try reflexivity.
  - unfold exports, api_d_ts, first_revision, second_revision, components,
      data_interfaces. cbn. rewrite !elem_of_cons, !elem_of_nil. tauto.
  - unfold exports, api_d_ts, first_revision, second_revision, components,
      data_interfaces. cbn. rewrite !elem_of_cons, !elem_of_nil. tauto.
Qed.

End SurfaceFacts.

(* ===================================================================== *)
(** ** [RemoteLoader]: the toon line width *)
(* ===================================================================== *)

Module LoaderFacts.
Import Num Engine Loader.

Lemma set_lineWidth_name width m : mtl_name (set_lineWidth width m) = mtl_name m.
Proof. unfold set_lineWidth. by case_bool_decide. Qed.

Lemma set_lineWidth_other width m :
  mtl_name m ≠ "toon" → set_lineWidth width m = m.
Proof. intros Hn. unfold set_lineWidth. by case_bool_decide. Qed.

Lemma set_lineWidth_toon width m :
  mtl_name m = "toon" → props (set_lineWidth width m) !! "lineWidth" = Some width.
Proof.
  intros Hn. unfold set_lineWidth. case_bool_decide; [| done].
  cbn. apply lookup_insert_eq.
Qed.

Lemma set_lineWidth_props width m k :
  k ≠ "lineWidth" → props (set_lineWidth width m) !! k = props m !! k.
Proof.
  intros Hk. unfold set_lineWidth. case_bool_decide; [| done].
  cbn. by apply lookup_insert_ne.
Qed.

(** C6: [setLineWidth] does nothing unless the current material is toon;
    when it is, the loader changes in its materials only, and there only
    the [lineWidth] property of the toon material is written. *)
Theorem setLineWidth_only_toon (width : num) (l : RemoteLoader) :
  (current l ≠ "toon" → setLineWidth width l = l)
  ∧ (current l = "toon" →
       same_but_materials l (setLineWidth width l)
       ∧ length (materials (setLineWidth width l)) = length (materials l)
       ∧ ∀ (i : nat) (m : Material), materials l !! i = Some m →
           ∃ m', materials (setLineWidth width l) !! i = Some m'
             ∧ mtl_name m' = mtl_name m
             ∧ (mtl_name m ≠ "toon" → m' = m)
             ∧ (mtl_name m = "toon" → props m' !! "lineWidth" = Some width)
             ∧ ∀ k, k ≠ "lineWidth" → props m' !! k = props m !! k).
Proof.
  unfold setLineWidth. split; intros Hc.
  - by case_bool_decide.
  - case_bool_decide; [| done]. cbn. split; [| split].
    + by repeat split.
    + apply length_fmap.
    + intros i m Hm. exists (set_lineWidth width m).
      rewrite list_lookup_fmap, Hm. cbn.
      split; [done |]. split; [apply set_lineWidth_name |].
      split; [apply set_lineWidth_other |].
      split; [apply set_lineWidth_toon |].
      intros k. apply set_lineWidth_props.
Qed.

Lemma setLineWidth_only_toon_witness :
  setLineWidth (of_Z 2) Samples.idle_loader = Samples.idle_loader
  ∧ same_but_materials Samples.toon_loader
      (setLineWidth (of_Z 2) Samples.toon_loader).
Proof.
  split.
  - apply (proj1 (setLineWidth_only_toon (of_Z 2) Samples.idle_loader)).
    discriminate.
  - apply (proj2 (setLineWidth_only_toon (of_Z 2) Samples.toon_loader)).
    reflexivity.
Defined.

End LoaderFacts.

(* ===================================================================== *)
(** ** [Settings]: the light direction *)
(* ===================================================================== *)

Module ViewerFacts.
Import Num Engine Viewer.

(** The constant written into the y angle is the binary64 value 90. *)
Lemma ninety : of_Z 90 = S754_finite false 6333186975989760 (-46).
Proof. reflexivity. Qed.

(** [setLightDirection] writes the light node only. *)
Lemma setLightDirection_frame e s :
  loader (setLightDirection e s) = loader s
  ∧ postProcess (setLightDirection e s) = postProcess s
  ∧ bloom (setLightDirection e s) = bloom s
  ∧ ao (setLightDirection e s) = ao s
  ∧ node_name (light (setLightDirection e s)) = node_name (light s).
Proof. by repeat split. Qed.

(** C3: after [setLightDirection(eulerAngles)] the y component of the light
    direction is 90 whatever the argument's y is, and the x and z
    components are the argument's. *)
Theorem setLightDirection_y_fixed (eulerAngles : Vec3) (s : Settings) :
  y (lightDirection (setLightDirection eulerAngles s)) = of_Z 90
  ∧ x (lightDirection (setLightDirection eulerAngles s)) = x eulerAngles
  ∧ z (lightDirection (setLightDirection eulerAngles s)) = z eulerAngles.
Proof. by repeat split. Qed.

End ViewerFacts.

(* ===================================================================== *)
(** ** The members of the declarations: accessors, results, lookups *)
(* ===================================================================== *)

Module MemberFacts.
Import Surface Members.

(** The member table has the declarations of [Surface] as its headers. *)
Lemma headers_agree :
  header <$> first_members = first_revision
  ∧ header <$> second_members = second_revision.
Proof. split; reflexivity. Qed.

Lemma for_all_members_spec (chk : tdecl → member → bool) (ds : list tdecl) :
  for_all_members chk ds = true →
  ∀ t m, t ∈ ds → m ∈ t_members t → chk t m = true.
Proof.
  unfold for_all_members. intros H t m Ht Hm.
  rewrite forallb_forall in H.
  specialize (H t (proj1 (list_elem_of_In _ _) Ht)).
  rewrite forallb_forall in H.
  exact (H m (proj1 (list_elem_of_In _ _) Hm)).
Qed.

Lemma lookup_member_Some k n t m :
  lookup_member k n t = Some m →
  m ∈ t_members t ∧ m_kind m = k ∧ m_name m = n.
Proof.
  unfold lookup_member, has_kind. intros H.
  apply List.find_some in H as [Hin Hb].
  apply andb_true_iff in Hb as [Hk Hn].
  apply bool_decide_eq_true in Hk, Hn.
  split; [by apply list_elem_of_In | done].
Qed.

Lemma lookup_decl_Some n ds t :
  lookup_decl n ds = Some t → t ∈ ds ∧ t_name t = n.
Proof.
  unfold lookup_decl. intros H.
  apply List.find_some in H as [Hin Hn].
  apply bool_decide_eq_true in Hn.
  split; [by apply list_elem_of_In | done].
Qed.

(** *** Calls *)

Lemma admits_nil (ps : list param) : admits ps [] = forallb p_optional ps.
Proof. induction ps as [| p ps IH]; cbn; [done | by rewrite IH]. Qed.

(** Relaxing a parameter list keeps every call that fitted it. *)
Lemma relaxes_admits (old new : list param) :
  relaxes new old = true →
  ∀ args, admits old args = true → admits new args = true.
Proof.
  revert new. induction old as [| o old IH]; intros new Hr args Ha.
  - destruct args; [| done]. rewrite admits_nil.
    by destruct new.
  - destruct new as [| n new]; [done |]. cbn in Hr.
    apply andb_true_iff in Hr as [Hr Hrest].
    apply andb_true_iff in Hr as [Hty Hopt].
    apply bool_decide_eq_true in Hty.
    destruct args as [| a args]; cbn in Ha |- *;
      apply andb_true_iff in Ha as [Ha1 Ha2]; apply andb_true_iff; split.
    + destruct (p_optional o); [done | discriminate Ha1].
    + by apply IH.
    + by rewrite Hty.
    + by apply IH.
Qed.

Lemma min_args_optional (ps : list param) :
  forallb p_optional ps = true → min_args ps = 0%nat.
Proof.
  unfold min_args. induction ps as [| p ps IH]; [done |]. cbn.
  intros H. apply andb_true_iff in H as [Hp H]. rewrite Hp. cbn. by apply IH.
Qed.

(** Relaxing a parameter list widens the range of argument counts. *)
Lemma relaxes_args (old new : list param) :
  relaxes new old = true →
  (min_args new ≤ min_args old)%nat ∧ (max_args old ≤ max_args new)%nat.
Proof.
  unfold max_args. revert new.
  induction old as [| o old IH]; intros new Hr.
  - cbn in Hr. rewrite (min_args_optional _ Hr). cbn. lia.
  - unfold min_args in *. destruct new as [| n new]; [done |]. cbn in Hr.
    apply andb_true_iff in Hr as [Hr Hrest].
    apply andb_true_iff in Hr as [_ Hopt].
    destruct (IH new Hrest) as [Hmin Hmax]. cbn.
    destruct (p_optional o), (p_optional n); cbn in *;
      try discriminate Hopt; lia.
Qed.

(** Membership in the table is decided by running through it. *)
Ltac in_table :=
  match goal with
  | |- ?P => refine (bool_decide_unpack P _); vm_compute; exact I
  end.

(** *** Accessors *)

(** X1: the [@readonly] tag is on getters only; a getter lacks a setter
    exactly when its doc comment says [@readonly]; every setter has a
    getter, takes one parameter, and that parameter has the getter's
    type. *)
Theorem accessors_paired (t : tdecl) (m : member) :
  t ∈ all_members → m ∈ t_members t →
  (m_readonly m = true → m_kind m = Getter)
  ∧ (m_kind m = Getter → (setter_of t m = None ↔ m_readonly m = true))
  ∧ (m_kind m = Setter →
       ∃ g p, getter_of t m = Some g ∧ m_params m = [p]
              ∧ m_type g = Some (p_type p)).
Proof.
  intros Ht Hm.
  pose (chk := λ (t : tdecl) (m : member),
    implb (m_readonly m) (has_kind Getter m)
    && implb (has_kind Getter m)
         (eqb (bool_decide (setter_of t m = None)) (m_readonly m))
    && implb (has_kind Setter m)
         match getter_of t m, m_params m with
         | Some g, [p] => bool_decide (m_type g = Some (p_type p))
         | _, _ => false
         end).
  assert (Hall : for_all_members chk all_members = true) by (vm_compute; reflexivity).
  pose proof (for_all_members_spec chk _ Hall t m Ht Hm) as Hc.
  unfold chk in Hc. clear chk Hall.
  apply andb_true_iff in Hc as [Hc H3]. apply andb_true_iff in Hc as [H1 H2].
  unfold has_kind in *. split; [| split].
  - intros Hr. rewrite Hr in H1. cbn in H1. by apply bool_decide_eq_true in H1.
  - intros Hk. rewrite bool_decide_eq_true_2 in H2 by done. cbn in H2.
    apply eqb_prop in H2. rewrite <- H2. apply symmetry, bool_decide_eq_true.
  - intros Hk. rewrite bool_decide_eq_true_2 in H3 by done. cbn in H3.
    destruct (getter_of t m) as [g |]; [| done].
    destruct (m_params m) as [| p [| ? ?]]; try done.
    apply bool_decide_eq_true in H3. by exists g, p.
Qed.

Lemma accessors_paired_witness :
  (setter_of (get_decl "Settings" first_members)
     (get_member Getter "lightDirection" (get_decl "Settings" first_members))
   = None
   ↔ m_readonly
       (get_member Getter "lightDirection" (get_decl "Settings" first_members))
     = true)
  ∧ ∃ g p,
      getter_of (get_decl "RodinController" second_members)
        (get_member Setter "polar" (get_decl "RodinController" second_members))
      = Some g
      ∧ m_params
          (get_member Setter "polar" (get_decl "RodinController" second_members))
        = [p]
      ∧ m_type g = Some (p_type p).
Proof.
  split.
  - apply (accessors_paired (get_decl "Settings" first_members)
             (get_member Getter "lightDirection"
                (get_decl "Settings" first_members)));
      [in_table | in_table | reflexivity].
  - apply (accessors_paired (get_decl "RodinController" second_members)
             (get_member Setter "polar"
                (get_decl "RodinController" second_members)));
      [in_table | in_table | reflexivity].
Defined.

(** *** Results *)

(** X2: a method returns [boolean] or [void]; it returns [boolean] exactly
    when its doc comment has [@returns], and exactly when it is one of the
    load requests [loadGLTF] and [loadRodinAsset]. *)
Theorem method_results (t : tdecl) (m : member) :
  t ∈ all_members → m ∈ t_members t → m_kind m = Method →
  (m_type m = Some "boolean" ∨ m_type m = Some "void")
  ∧ (m_type m = Some "boolean" ↔ m_returns m = true)
  ∧ (m_type m = Some "boolean"
     ↔ m_name m = "loadGLTF" ∨ m_name m = "loadRodinAsset").
Proof.
  intros Ht Hm Hk.
  pose (chk := λ (_ : tdecl) (m : member),
    implb (has_kind Method m)
      ((bool_decide (m_type m = Some "boolean")
        || bool_decide (m_type m = Some "void"))
       && eqb (bool_decide (m_type m = Some "boolean")) (m_returns m)
       && eqb (bool_decide (m_type m = Some "boolean"))
              (bool_decide (m_name m = "loadGLTF")
               || bool_decide (m_name m = "loadRodinAsset")))).
  assert (Hall : for_all_members chk all_members = true) by (vm_compute; reflexivity).
  pose proof (for_all_members_spec chk _ Hall t m Ht Hm) as Hc.
  unfold chk, has_kind in Hc. clear chk Hall.
  rewrite bool_decide_eq_true_2 in Hc by done. cbn in Hc.
  apply andb_true_iff in Hc as [Hc H3]. apply andb_true_iff in Hc as [H1 H2].
  apply eqb_prop in H2, H3. split; [| split].
  - apply orb_true_iff in H1 as [H1 | H1]; apply bool_decide_eq_true in H1; auto.
  - rewrite <- H2. apply symmetry, bool_decide_eq_true.
  - rewrite <- (bool_decide_eq_true (m_type m = Some "boolean")), H3.
    rewrite orb_true_iff, !bool_decide_eq_true. done.
Qed.

Lemma method_results_witness :
  m_type (get_member Method "loadRodinAsset" (get_decl "Settings" second_members))
  = Some "boolean"
  ↔ m_returns
      (get_member Method "loadRodinAsset" (get_decl "Settings" second_members))
    = true.
Proof.
  apply (method_results (get_decl "Settings" second_members)
           (get_member Method "loadRodinAsset"
              (get_decl "Settings" second_members)));
    [in_table | in_table | reflexivity].
Defined.

(** *** Lookups *)

(** X3: within a revision a declaration is found by its name and no other
    declaration has that name; within a declaration a member is found by
    its kind and name, and no other member has that name, apart from a
    getter and its setter. *)
Theorem lookup_own_member (ds : list tdecl) (t : tdecl) (m : member) :
  ds = first_members ∨ ds = second_members →
  t ∈ ds → m ∈ t_members t →
  lookup_decl (t_name t) ds = Some t
  ∧ lookup_member (m_kind m) (m_name m) t = Some m
  ∧ (∀ t', t' ∈ ds → t_name t' = t_name t → t' = t)
  ∧ (∀ m', m' ∈ t_members t → m_name m' = m_name m →
       m' = m
       ∨ (m_kind m = Getter ∧ m_kind m' = Setter)
       ∨ (m_kind m = Setter ∧ m_kind m' = Getter)).
Proof.
  intros Hds Ht Hm.
  pose (chk := λ (ds : list tdecl) (t : tdecl) (m : member),
    bool_decide (lookup_decl (t_name t) ds = Some t)
    && bool_decide (lookup_member (m_kind m) (m_name m) t = Some m)
    && forallb (λ t', implb (bool_decide (t_name t' = t_name t))
                            (bool_decide (t' = t))) ds
    && forallb (λ m', implb (bool_decide (m_name m' = m_name m))
                            (bool_decide (m' = m)
                             || (has_kind Getter m && has_kind Setter m')
                             || (has_kind Setter m && has_kind Getter m')))
               (t_members t)).
  assert (Hc : chk ds t m = true).
  { destruct Hds as [-> | ->].
    - apply (for_all_members_spec (chk first_members) first_members);
        [vm_compute; reflexivity | done | done].
    - apply (for_all_members_spec (chk second_members) second_members);
        [vm_compute; reflexivity | done | done]. }
  unfold chk in Hc. clear chk.
  apply andb_true_iff in Hc as [Hc H4]. apply andb_true_iff in Hc as [Hc H3].
  apply andb_true_iff in Hc as [H1 H2].
  apply bool_decide_eq_true in H1, H2.
  rewrite forallb_forall in H3, H4.
  split; [done |]. split; [done |]. split.
  - intros t' Ht' Hn. specialize (H3 t' (proj1 (list_elem_of_In _ _) Ht')).
    rewrite bool_decide_eq_true_2 in H3 by done. cbn in H3.
    by apply bool_decide_eq_true in H3.
  - intros m' Hm' Hn. specialize (H4 m' (proj1 (list_elem_of_In _ _) Hm')).
    rewrite bool_decide_eq_true_2 in H4 by done. cbn in H4.
    unfold has_kind in H4.
    apply orb_true_iff in H4 as [H4 | H4];
      [apply orb_true_iff in H4 as [H4 | H4] |].
    + left. by apply bool_decide_eq_true in H4.
    + right; left. apply andb_true_iff in H4 as [Ha Hb].
      by apply bool_decide_eq_true in Ha, Hb.
    + right; right. apply andb_true_iff in H4 as [Ha Hb].
      by apply bool_decide_eq_true in Ha, Hb.
Qed.

Lemma lookup_own_member_witness :
  lookup_decl "RemoteLoader" first_members
  = Some (get_decl "RemoteLoader" first_members)
  ∧ lookup_member Setter "wireColor" (get_decl "RemoteLoader" first_members)
    = Some (get_member Setter "wireColor"
              (get_decl "RemoteLoader" first_members))
  ∧ (∀ t', t' ∈ first_members → t_name t' = "RemoteLoader"
           → t' = get_decl "RemoteLoader" first_members)
  ∧ (∀ m', m' ∈ t_members (get_decl "RemoteLoader" first_members)
           → m_name m' = "wireColor"
           → m' = get_member Setter "wireColor"
                    (get_decl "RemoteLoader" first_members)
             ∨ (Setter = Getter ∧ m_kind m' = Setter)
             ∨ (Setter = Setter ∧ m_kind m' = Getter)).
Proof.
  apply (lookup_own_member first_members
           (get_decl "RemoteLoader" first_members)
           (get_member Setter "wireColor"
              (get_decl "RemoteLoader" first_members)));
    [by left | in_table | in_table].
Defined.

(** *** The two revisions *)

Lemma counterpart_Some (t : tdecl) (m m' : member) :
  counterpart t m = Some m' → m_kind m' = m_kind m ∧ m_name m' = m_name m.
Proof.
  unfold counterpart. destruct (lookup_decl _ _) as [t1 |]; [| done].
  intros H. by apply lookup_member_Some in H as (_ & ? & ?).
Qed.

(** X4: every method of the second revision whose written types name no
    declaration of the file (they are primitive and engine types), other
    than [RemoteLoader.loadGLTF], is declared in the first revision by the
    same class with the same result type and a parameter list that relaxes
    it: every argument list that fits the second revision's method fits
    the first revision's. *)
Theorem second_revision_calls_fit_first (t : tdecl) (m : member) :
  t ∈ second_members → m ∈ t_members t → m_kind m = Method →
  names_own m = false →
  ¬ (t_name t = "RemoteLoader" ∧ m_name m = "loadGLTF") →
  ∃ m', counterpart t m = Some m'
        ∧ m_type m' = m_type m
        ∧ names_own m' = false
        ∧ relaxes (m_params m') (m_params m) = true
        ∧ ∀ args, admits (m_params m) args = true
                  → admits (m_params m') args = true.
Proof.
  intros Ht Hm Hk Hown Hne.
  pose (chk := λ (t : tdecl) (m : member),
    implb (has_kind Method m && negb (names_own m))
      (bool_decide (t_name t = "RemoteLoader" ∧ m_name m = "loadGLTF")
       || match counterpart t m with
          | Some m' => bool_decide (m_type m' = m_type m)
                       && negb (names_own m')
                       && relaxes (m_params m') (m_params m)
          | None => false
          end)).
  assert (Hall : for_all_members chk second_members = true) by (vm_compute; reflexivity).
  pose proof (for_all_members_spec chk _ Hall t m Ht Hm) as Hc.
  unfold chk, has_kind in Hc. clear chk Hall.
  rewrite bool_decide_eq_true_2 in Hc by done. rewrite Hown in Hc. cbn in Hc.
  rewrite bool_decide_eq_false_2 in Hc by done. cbn in Hc.
  destruct (counterpart t m) as [m' |]; [| done].
  apply andb_true_iff in Hc as [Hc Hr]. apply andb_true_iff in Hc as [Hty Ho].
  apply bool_decide_eq_true in Hty. apply negb_true_iff in Ho.
  exists m'. repeat split; try done. by apply relaxes_admits.
Qed.

Lemma second_revision_calls_fit_first_witness :
  ∃ m', counterpart (get_decl "Settings" second_members)
          (get_member Method "setColorBackground"
             (get_decl "Settings" second_members)) = Some m'
        ∧ m_type m'
          = m_type (get_member Method "setColorBackground"
                      (get_decl "Settings" second_members))
        ∧ names_own m' = false
        ∧ relaxes (m_params m')
            (m_params (get_member Method "setColorBackground"
                         (get_decl "Settings" second_members))) = true
        ∧ ∀ args,
            admits (m_params (get_member Method "setColorBackground"
                                (get_decl "Settings" second_members))) args
            = true
            → admits (m_params m') args = true.
Proof.
  apply (second_revision_calls_fit_first (get_decl "Settings" second_members)
           (get_member Method "setColorBackground"
              (get_decl "Settings" second_members)));
    [in_table | in_table | reflexivity | vm_compute; reflexivity |].
  intros [H _]. vm_compute in H. discriminate H.
Defined.

(** The methods of the second revision left out because a parameter names a
    declaration of the file: [RodinAsset] and [RodinMaterial] are declared
    by both revisions, and the first requires more of them. *)
Example methods_naming_own_declarations :
  (λ t, (t_name t,
         m_name <$> List.filter (λ m, has_kind Method m && names_own m)
                                (t_members t)))
    <$> List.filter (λ t, bool_decide (t_kind t = Class)) second_members
  = [ ("RemoteLoader", [ "loadRodinAsset"; "updateMaterial" ]);
      ("Settings", [ "loadRodinAsset" ]);
      ("RodinController", []) ].
Proof. vm_compute. reflexivity. Qed.

(** [loadGLTF] is the exception: the callback of the first revision takes a
    [LoadedRenderer], that of the second a [MeshRenderer]; the other
    parameters and the result agree. *)
Example loadGLTF_callback_differs :
  let m1 := get_member Method "loadGLTF" (get_decl "RemoteLoader" first_members) in
  let m2 := get_member Method "loadGLTF" (get_decl "RemoteLoader" second_members) in
  m_type m1 = m_type m2
  ∧ p_optional <$> m_params m1 = p_optional <$> m_params m2
  ∧ p_type <$> m_params m1
    = <[2%nat := "(node: Node, loadedRenderer: LoadedRenderer, backColor?: Color, edgeColor?: Color) => void"]>
        (p_type <$> m_params m2)
  ∧ relaxes (m_params m1) (m_params m2) = false.
Proof. repeat split; reflexivity. Qed.

(** X5: every public field and accessor of the second revision whose
    written types name no declaration of the file (they are primitive and
    engine types), other than [Settings.sphere] and [Settings.assets], is
    declared in the first revision by the declaration of the same name,
    public, with the same type, parameters and optionality. *)
Theorem second_revision_members_in_first (t : tdecl) (m : member) :
  t ∈ second_members → m ∈ t_members t →
  m_access m = Public → m_kind m ≠ Method →
  names_own m = false →
  ¬ (t_name t = "Settings" ∧ (m_name m = "sphere" ∨ m_name m = "assets")) →
  ∃ m', counterpart t m = Some m'
        ∧ m_access m' = Public
        ∧ m_static m' = m_static m
        ∧ m_optional m' = m_optional m
        ∧ m_params m' = m_params m
        ∧ m_type m' = m_type m
        ∧ names_own m' = false.
Proof.
  intros Ht Hm Ha Hk Hown Hne.
  pose (chk := λ (t : tdecl) (m : member),
    implb (is_public m && negb (has_kind Method m) && negb (names_own m))
      (bool_decide (t_name t = "Settings"
                    ∧ (m_name m = "sphere" ∨ m_name m = "assets"))
       || match counterpart t m with
          | Some m' => is_public m'
                       && bool_decide (m_static m' = m_static m)
                       && bool_decide (m_optional m' = m_optional m)
                       && bool_decide (m_params m' = m_params m)
                       && bool_decide (m_type m' = m_type m)
                       && negb (names_own m')
          | None => false
          end)).
  assert (Hall : for_all_members chk second_members = true) by (vm_compute; reflexivity).
  pose proof (for_all_members_spec chk _ Hall t m Ht Hm) as Hc.
  unfold chk, has_kind, is_public in Hc. clear chk Hall.
  rewrite (bool_decide_eq_true_2 (m_access m = Public)) in Hc by done.
  rewrite (bool_decide_eq_false_2 (m_kind m = Method)) in Hc by done.
  rewrite Hown in Hc.
  cbn in Hc. rewrite bool_decide_eq_false_2 in Hc by done. cbn in Hc.
  destruct (counterpart t m) as [m' |]; [| done].
  apply andb_true_iff in Hc as [Hc Ho]. apply negb_true_iff in Ho.
  repeat (apply andb_true_iff in Hc as [Hc ?]).
  repeat match goal with
         | H : bool_decide _ = true |- _ => apply bool_decide_eq_true in H
         end.
  by exists m'.
Qed.

Lemma second_revision_members_in_first_witness :
  ∃ m', counterpart (get_decl "RodinMaterial" second_members)
          (get_member Field "pbrMap" (get_decl "RodinMaterial" second_members))
        = Some m'
        ∧ m_access m' = Public
        ∧ m_static m' = false
        ∧ m_optional m' = true
        ∧ m_params m' = []
        ∧ m_type m' = Some "string | Texture2D"
        ∧ names_own m' = false.
Proof.
  apply (second_revision_members_in_first
           (get_decl "RodinMaterial" second_members)
           (get_member Field "pbrMap" (get_decl "RodinMaterial" second_members)));
    [in_table | in_table | reflexivity | discriminate
    | vm_compute; reflexivity |].
  intros [H _]. vm_compute in H. discriminate H.
Defined.

(** The fields of the second revision left out because their type names a
    declaration of the file. *)
Example fields_naming_own_declarations :
  (λ t, (t_name t,
         m_name <$> List.filter (λ m, negb (has_kind Method m) && names_own m)
                                (t_members t)))
    <$> second_members
  = [ ("RodinMaterialProperties", []);
      ("RodinMaterial", [ "properties" ]);
      ("RodinAsset", [ "materials" ]);
      ("RemoteLoader", []);
      ("Settings", [ "loader" ]);
      ("RodinController", []) ].
Proof. vm_compute. reflexivity. Qed.

(** The two members the first revision's [Settings] no longer has; [assets]
    is declared by [SettingsMenu] there, with the same type. *)
Example Settings_members_moved :
  let t2 := get_decl "Settings" second_members in
  counterpart t2 (get_member Field "sphere" t2) = None
  ∧ counterpart t2 (get_member Field "assets" t2) = None
  ∧ m_type (get_member Field "assets" (get_decl "SettingsMenu" first_members))
    = m_type (get_member Field "assets" t2).
Proof. repeat split; reflexivity. Qed.

(** *** Objects of the interfaces *)

(** When every required member of [t2] is a required member of [t1], an
    object that provides what [t1] requires provides what [t2] requires. *)
Lemma provides_mono (t1 t2 : tdecl) :
  forallb (λ m2, m_optional m2
                 || existsb (λ m1, negb (m_optional m1)
                                   && bool_decide (m_name m1 = m_name m2))
                            (t_members t1))
          (t_members t2) = true →
  ∀ present, provides present t1 = true → provides present t2 = true.
Proof.
  unfold provides. intros H present H1.
  rewrite forallb_forall in H, H1 |- *. intros m2 Hin2.
  specialize (H m2 Hin2). apply orb_true_iff in H as [H | H].
  - by rewrite H.
  - apply existsb_exists in H as (m1 & Hin1 & Hm1).
    apply andb_true_iff in Hm1 as [Hreq Hn].
    apply bool_decide_eq_true in Hn.
    specialize (H1 m1 Hin1). rewrite <- Hn.
    destruct (m_optional m1); [discriminate Hreq |].
    cbn in H1. rewrite H1. apply orb_true_r.
Qed.

(** X6: each interface of the second revision is an interface of the first
    revision too, and the first revision requires at least as much: an
    object that provides every required member of the first revision's
    interface provides every required member of the second's. *)
Theorem first_revision_interfaces_require_more (t2 : tdecl) :
  t2 ∈ second_members → t_kind t2 = Interface →
  ∃ t1, lookup_decl (t_name t2) first_members = Some t1
        ∧ t_kind t1 = Interface
        ∧ ∀ present, provides present t1 = true → provides present t2 = true.
Proof.
  intros Ht Hk.
  unfold second_members in Ht.
  repeat (apply elem_of_cons in Ht as [-> | Ht]);
    try discriminate Hk; [| | | by apply elem_of_nil in Ht];
    eexists; (split; [reflexivity |]); (split; [reflexivity |]);
    by apply provides_mono.
Qed.

Lemma first_revision_interfaces_require_more_witness :
  ∃ t1, lookup_decl "RodinMaterialProperties" first_members = Some t1
        ∧ t_kind t1 = Interface
        ∧ ∀ present,
            provides present t1 = true
            → provides present
                (get_decl "RodinMaterialProperties" second_members) = true.
Proof.
  apply (first_revision_interfaces_require_more
           (get_decl "RodinMaterialProperties" second_members));
    [in_table | reflexivity].
Defined.

(** The converse fails: an object with [roughness] and [metallic] only is a
    [RodinMaterialProperties] of the second revision, not of the first,
    which requires [albedoScale] as well. *)
Example albedoScale_required :
  provides [ "roughness"; "metallic" ]
    (get_decl "RodinMaterialProperties" second_members) = true
  ∧ provides [ "roughness"; "metallic" ]
      (get_decl "RodinMaterialProperties" first_members) = false
  ∧ provides [ "roughness"; "metallic"; "albedoScale" ]
      (get_decl "RodinMaterialProperties" first_members) = true.
Proof. repeat split; reflexivity. Qed.

(** *** Types *)

(** X7: a private member is declared by name only (no type, no parameters,
    and only classes have them); every public field, getter and method has
    a declared type; a setter has none. *)
Theorem private_members_untyped (t : tdecl) (m : member) :
  t ∈ all_members → m ∈ t_members t →
  (m_access m = Private →
     t_kind t = Class ∧ m_kind m = Field ∧ m_type m = None ∧ m_params m = [])
  ∧ (m_access m = Public → m_kind m ≠ Setter → is_Some (m_type m))
  ∧ (m_kind m = Setter → m_type m = None).
Proof.
  intros Ht Hm.
  pose (chk := λ (t : tdecl) (m : member),
    (if is_public m
     then has_kind Setter m || bool_decide (is_Some (m_type m))
     else bool_decide (t_kind t = Class) && has_kind Field m
          && bool_decide (m_type m = None) && bool_decide (m_params m = []))
    && implb (has_kind Setter m) (bool_decide (m_type m = None))).
  assert (Hall : for_all_members chk all_members = true) by (vm_compute; reflexivity).
  pose proof (for_all_members_spec chk _ Hall t m Ht Hm) as Hc.
  unfold chk, has_kind, is_public in Hc. clear chk Hall.
  apply andb_true_iff in Hc as [H1 H2]. split; [| split].
  - intros Ha. rewrite bool_decide_eq_false_2 in H1 by (rewrite Ha; done).
    repeat (apply andb_true_iff in H1 as [H1 ?]).
    repeat match goal with
           | H : bool_decide _ = true |- _ => apply bool_decide_eq_true in H
           end.
    done.
  - intros Ha Hk. rewrite bool_decide_eq_true_2 in H1 by done.
    rewrite bool_decide_eq_false_2 in H1 by done. cbn in H1.
    by apply bool_decide_eq_true in H1.
  - intros Hk. rewrite bool_decide_eq_true_2 in H2 by done. cbn in H2.
    by apply bool_decide_eq_true in H2.
Qed.

Lemma private_members_untyped_witness :
  (t_kind (get_decl "RemoteLoader" second_members) = Class
   ∧ m_kind (get_member Field "_data" (get_decl "RemoteLoader" second_members))
     = Field
   ∧ m_type (get_member Field "_data" (get_decl "RemoteLoader" second_members))
     = None
   ∧ m_params (get_member Field "_data" (get_decl "RemoteLoader" second_members))
     = [])
  ∧ is_Some (m_type (get_member Field "loading"
                       (get_decl "RemoteLoader" second_members))).
Proof.
  split.
  - apply (private_members_untyped (get_decl "RemoteLoader" second_members)
             (get_member Field "_data" (get_decl "RemoteLoader" second_members)));
      [in_table | in_table | reflexivity].
  - apply (private_members_untyped (get_decl "RemoteLoader" second_members)
             (get_member Field "loading" (get_decl "RemoteLoader" second_members)));
      [in_table | in_table | reflexivity | discriminate].
Defined.



(** *** Numbers of arguments *)

(** A call that fits has between [min_args] and [max_args] arguments. *)
Lemma admits_length (ps : list param) (args : list string) :
  admits ps args = true →
  (min_args ps ≤ length args)%nat ∧ (length args ≤ max_args ps)%nat.
Proof.
  unfold min_args, max_args. revert args.
  induction ps as [| p ps IH]; intros [| a args] H; cbn in *; try done.
  - apply andb_true_iff in H as [Hp H]. rewrite Hp. cbn.
    destruct (IH [] H). cbn in *. lia.
  - apply andb_true_iff in H as [_ H]. destruct (IH args H).
    destruct (p_optional p); cbn; lia.
Qed.

(** X9: a call fits a member only with a number of arguments between the
    number of its required parameters and the number of its parameters; and
    for every such number [n], passing the first [n] parameters fits:
    optional parameters are the trailing ones. *)
Theorem calls_by_prefix (t : tdecl) (m : member) :
  t ∈ all_members → m ∈ t_members t →
  (∀ args, admits (m_params m) args = true →
     (min_args (m_params m) ≤ length args ≤ max_args (m_params m))%nat)
  ∧ (∀ n : nat,
       (min_args (m_params m) ≤ n ≤ max_args (m_params m))%nat →
       admits (m_params m) (p_type <$> take n (m_params m)) = true).
Proof.
  intros Ht Hm. split.
  - intros args Ha. by apply admits_length.
  - intros n Hn.
    pose (chk := λ (_ : tdecl) (m : member),
      forallb (λ n, admits (m_params m) (p_type <$> take n (m_params m)))
        (seq (min_args (m_params m))
             (S (max_args (m_params m)) - min_args (m_params m)))).
    assert (Hall : for_all_members chk all_members = true) by (vm_compute; reflexivity).
    pose proof (for_all_members_spec chk _ Hall t m Ht Hm) as Hc.
    unfold chk in Hc. rewrite forallb_forall in Hc.
    apply Hc, in_seq. lia.
Qed.

Lemma calls_by_prefix_witness :
  admits (m_params (get_member Method "init" (get_decl "Settings" first_members)))
    (p_type <$> take 4
       (m_params (get_member Method "init" (get_decl "Settings" first_members))))
  = true.
Proof.
  apply (calls_by_prefix (get_decl "Settings" first_members)
           (get_member Method "init" (get_decl "Settings" first_members)));
    [in_table | in_table | vm_compute; lia].
Defined.

(** *** [Settings.loadRodinAsset] and [RemoteLoader.loadRodinAsset] *)

(** X10: in both revisions [Settings.loadRodinAsset] and
    [RemoteLoader.loadRodinAsset] return [boolean], and every argument list
    that fits the method of [Settings] fits the method of [RemoteLoader]. *)
Theorem Settings_loadRodinAsset_forwards (ds : list tdecl) :
  ds = first_members ∨ ds = second_members →
  ∃ ts tl ms ml,
    lookup_decl "Settings" ds = Some ts
    ∧ lookup_decl "RemoteLoader" ds = Some tl
    ∧ lookup_member Method "loadRodinAsset" ts = Some ms
    ∧ lookup_member Method "loadRodinAsset" tl = Some ml
    ∧ m_type ms = Some "boolean" ∧ m_type ml = Some "boolean"
    ∧ ∀ args, admits (m_params ms) args = true
              → admits (m_params ml) args = true.
Proof.
  intros [-> | ->]; do 4 eexists;
    (split; [reflexivity |]); (split; [reflexivity |]);
    (split; [reflexivity |]); (split; [reflexivity |]);
    (split; [reflexivity |]); (split; [reflexivity |]);
    by apply relaxes_admits.
Qed.

Lemma Settings_loadRodinAsset_forwards_witness :
  ∃ ts tl ms ml,
    lookup_decl "Settings" second_members = Some ts
    ∧ lookup_decl "RemoteLoader" second_members = Some tl
    ∧ lookup_member Method "loadRodinAsset" ts = Some ms
    ∧ lookup_member Method "loadRodinAsset" tl = Some ml
    ∧ m_type ms = Some "boolean" ∧ m_type ml = Some "boolean"
    ∧ ∀ args, admits (m_params ms) args = true
              → admits (m_params ml) args = true.
Proof.
  apply (Settings_loadRodinAsset_forwards second_members). by right.
Defined.

End MemberFacts.
